(** * podo-teams: the count page (bowling score back-calculation)

    A shallow embedding of the scoring core of the count page
    ([scoreGame], the four candidate generators, [scoreRealism] and the
    completion search of [handleCalculate]) together with the properties
    the specification states about them.

    Pin counts and scores are JavaScript numbers holding integers; they are
    modelled as [Z].  Array indices and lengths are [nat].  The realism score
    is a sum of integers and halves (the weight [0.5]), which doubles
    represent exactly; it is modelled in [Q] and compared with [==]. *)

From Stdlib Require Import ZArith List Bool Lia QArith.
Import ListNotations.
Local Open Scope Z_scope.

(** ** Frame model *)

(** [type Frame = number[]]: the pins of each roll of one frame. *)
Definition Frame := list Z.

(** A solution is the array [[f8, f9, f10]]. *)
Definition Solution := (Frame * Frame * Frame)%type.

(** [for (let x = lo; x <= hi; x++)]: the values the loop variable takes. *)
Fixpoint upFrom (lo : Z) (n : nat) : list Z :=
  match n with
  | O => []
  | S k => lo :: upFrom (lo + 1) k
  end.

Definition range (lo hi : Z) : list Z := upFrom lo (Z.to_nat (hi - lo + 1)).

(** ** Scorer *)

(** [rolls[i] ?? 0]: an index past the end reads [undefined], which the
    nullish coalescing turns into 0. *)
Definition rollAt (rolls : list Z) (i : nat) : Z :=
  match nth_error rolls i with
  | Some v => v
  | None => 0
  end.

(** [for (i...) rolls.push(...frames[i])]. *)
Definition flattenFrames (frames : list Frame) : list Z := concat frames.

(** The two variables the frame loop of [scoreGame] updates. *)
Record Cursor := mkCursor { score : Z; rollIndex : nat }.

(** The body of [for (let frame = 1; frame <= 10; frame++)]. *)
Definition frameStep (rolls : list Z) (frame : Z) (st : Cursor) : Cursor :=
  let i := rollIndex st in
  let first := rollAt rolls i in
  if first =? 10 then
    mkCursor (score st + (10 + rollAt rolls (i + 1) + rollAt rolls (i + 2)))
             (i + 1)
  else
    let a := first in
    let b := rollAt rolls (i + 1) in
    let sum := a + b in
    let score1 :=
      if sum =? 10 then score st + (10 + rollAt rolls (i + 2))
      else score st + sum in
    let i1 := (i + 2)%nat in
    if frame =? 10 then
      if a =? 10 then
        mkCursor (score1 + (rollAt rolls i1 + rollAt rolls (i1 + 1))) (i1 + 2)
      else if sum =? 10 then
        mkCursor (score1 + rollAt rolls i1) (i1 + 1)
      else mkCursor score1 i1
    else mkCursor score1 i1.

Definition startCursor : Cursor := mkCursor 0 0.

(** The frame loop run over the values 1..10 of [frame]. *)
Definition runFrames (rolls : list Z) (frameNos : list Z) (st : Cursor) : Cursor :=
  fold_left (fun acc frame => frameStep rolls frame acc) frameNos st.

Definition scoreGame (frames : list Frame) : Z :=
  score (runFrames (flattenFrames frames) (range 1 10) startCursor).

(** The same loop with its guard [frame <= 10] tested before every
    iteration; [fuel] bounds the number of iterations, and [None] means the
    bound was too small for the loop to finish. *)
Fixpoint forFrames (fuel : nat) (rolls : list Z) (frame : Z) (st : Cursor)
  : option Cursor :=
  if frame <=? 10 then
    match fuel with
    | O => None
    | S k => forFrames k rolls (frame + 1) (frameStep rolls frame st)
    end
  else Some st.

(** ** The frame invariants of the data model *)

Definition inPins (x : Z) : bool := (0 <=? x) && (x <=? 10).

(** Frames 1-9: a single roll of 10, or two rolls summing to at most 10. *)
Definition validOrdinary (f : Frame) : bool :=
  match f with
  | [a] => a =? 10
  | [a; b] => inPins a && inPins b && (a + b <=? 10)
  | _ => false
  end.

(** Frame 10: an open of two rolls (first below 10, sum at most 10), a
    spare plus one bonus roll, or a strike plus two bonus rolls where a
    non-strike first bonus roll bounds the second. *)
Definition validTenth (f : Frame) : bool :=
  match f with
  | [a; b] => inPins a && inPins b && (a <? 10) && (a + b <=? 10)
  | [a; b; c] =>
      inPins a && inPins b && inPins c &&
      (if a =? 10 then (if b =? 10 then true else b + c <=? 10)
       else a + b =? 10)
  | _ => false
  end.

Definition validGame (g : list Frame) : bool :=
  (length g =? 10)%nat && forallb validOrdinary (firstn 9 g)
  && validTenth (nth 9 g []).

(** Every roll of every frame is a pin count in 0..10. *)
Definition rollsInRange (rolls : list Z) : Prop :=
  Forall (fun x => 0 <= x <= 10) rolls.

(** ** Official ten-pin scoring, frame by frame

    These definitions state the rules of the game on a scorecard; they are
    not taken from [scoreGame], which is compared with them below. *)

Definition sumRolls (f : Frame) : Z := fold_right Z.add 0 f.

(** What a frame of 1..9 is worth, given the rolls that follow it. *)
Definition ordinaryWorth (f : Frame) (later : list Z) : Z :=
  match f with
  | [a] => a + rollAt later 0 + rollAt later 1
  | [a; b] => if a + b =? 10 then 10 + rollAt later 0 else a + b
  | _ => sumRolls f
  end.

(** The official total: frames 1..9 with their look-ahead bonus, and the
    tenth frame worth the plain sum of its own two or three rolls. *)
Fixpoint officialScore (g : list Frame) : Z :=
  match g with
  | [] => 0
  | [f10] => sumRolls f10
  | f :: rest => ordinaryWorth f (flattenFrames rest) + officialScore rest
  end.

Definition gutterGame : list Frame := repeat [0; 0] 10.
Definition perfectGame : list Frame := repeat [10] 9 ++ [[10; 10; 10]].

(** Frames 1-9 as a scorecard holds them: a strike is the single roll
    [10], so a two-roll frame starts below 10. *)
Definition strictOrdinary (f : Frame) : bool :=
  match f with
  | [a] => a =? 10
  | [a; b] => inPins a && inPins b && (a <? 10) && (a + b <=? 10)
  | _ => false
  end.

(** What frames 1..9 are worth officially, [later] being the rolls of the
    tenth frame. *)
Fixpoint worthAll (fs : list Frame) (later : list Z) : Z :=
  match fs with
  | [] => 0
  | f :: rest => ordinaryWorth f (flattenFrames rest ++ later) + worthAll rest later
  end.

(** The bonus roll of a tenth-frame spare, which the frame loop adds once
    as look-ahead and once more in its frame-10 branch. *)
Definition doubleCounted (f10 : Frame) : Z :=
  match f10 with
  | [a; b; c] => if a =? 10 then 0 else c
  | _ => 0
  end.

Definition spareFinishGame : list Frame := repeat [0; 0] 9 ++ [[5; 5; 3]].

(** ** Candidate generators *)

Definition generateNormalFrameCandidates_NoFilter : list Frame :=
  let res := [[10]] in
  let res := res ++ map (fun a => [a; 10 - a]) (range 0 9) in
  let res :=
    res ++ flat_map (fun a => map (fun b => [a; b]) (range 0 (9 - a)))
                    (range 0 9) in
  res.

(** The strike part shared by both tenth-frame generators:
    [for b = 0..10], with [c] up to 10 after a second strike and up to
    [10 - b] otherwise. *)
Definition tenthStrikeCandidates : list Frame :=
  flat_map (fun b =>
              if b =? 10 then map (fun c => [10; b; c]) (range 0 10)
              else map (fun c => [10; b; c]) (range 0 (10 - b)))
           (range 0 10).

Definition generateTenthFrameCandidates_NoFilter : list Frame :=
  let res := [] in
  let res :=
    res ++ flat_map (fun a => map (fun b => [a; b]) (range 0 (9 - a)))
                    (range 0 9) in
  let res :=
    res ++ flat_map (fun a => map (fun c => [a; 10 - a; c]) (range 0 10))
                    (range 0 9) in
  let res := res ++ tenthStrikeCandidates in
  res.

Definition generateNormalFrameCandidates_FilterFirstZero : list Frame :=
  let res := [[10]] in
  let res := res ++ map (fun a => [a; 10 - a]) (range 1 9) in
  let res :=
    res ++ flat_map (fun a => map (fun b => [a; b]) (range 0 (9 - a)))
                    (range 1 9) in
  res.

Definition generateTenthFrameCandidates_FilterFirstZero : list Frame :=
  let res := [] in
  let res :=
    res ++ flat_map (fun a => map (fun b => [a; b]) (range 0 (9 - a)))
                    (range 1 9) in
  let res :=
    res ++ flat_map (fun a => map (fun c => [a; 10 - a; c]) (range 0 10))
                    (range 1 9) in
  let res := res ++ tenthStrikeCandidates in
  res.

Definition NORMAL_CAND_FILTER : list Frame :=
  generateNormalFrameCandidates_FilterFirstZero.
Definition TENTH_CAND_FILTER : list Frame :=
  generateTenthFrameCandidates_FilterFirstZero.

(** The pool [handleCalculate] picks for a free frame 8 or 9, and for a free
    frame 10, under the toggle [forbidFirstZero]. *)
Definition normalPool (forbidFirstZero : bool) : list Frame :=
  if forbidFirstZero then NORMAL_CAND_FILTER
  else generateNormalFrameCandidates_NoFilter.

Definition tenthPool (forbidFirstZero : bool) : list Frame :=
  if forbidFirstZero then TENTH_CAND_FILTER
  else generateTenthFrameCandidates_NoFilter.

(** ** Realism ranking *)

Record Weights := mkWeights {
  spareBase : Q;
  spareFirstBallMul : Q;
  strikePenalty : Q;
  consecutiveStrikePenalty : Q;
  openFirstBallMul : Q;
  openSecondBallMul : Q;
  gutterFirstPenalty : Q;
  tenthNiceBonus : Q;
  tripleXPenalty : Q
}.

Definition WEIGHTS : Weights :=
  {| spareBase := 5;
     spareFirstBallMul := 2;
     strikePenalty := -3;
     consecutiveStrikePenalty := -4;
     openFirstBallMul := 1;
     openSecondBallMul := 1 # 2;
     gutterFirstPenalty := -8;
     tenthNiceBonus := 2;
     tripleXPenalty := -2 |}.

(** [f[i]] where the length test in front of it keeps [i] in range. *)
Definition pin (f : Frame) (i : nat) : Z := nth i f 0.

Definition isStrikeFrame (f : Frame) : bool :=
  (length f =? 1)%nat && (pin f 0 =? 10).
Definition isSpareFrame (f : Frame) : bool :=
  (length f =? 2)%nat && (pin f 0 + pin f 1 =? 10) && negb (pin f 0 =? 10).
Definition isOpenFrame (f : Frame) : bool :=
  (length f =? 2)%nat && (pin f 0 + pin f 1 <? 10).
Definition isTenthLikeStrike (f : Frame) : bool :=
  (length f =? 3)%nat && (pin f 0 =? 10).
Definition isTenthLikeSpare (f : Frame) : bool :=
  (length f =? 3)%nat && (pin f 0 + pin f 1 =? 10) && negb (pin f 0 =? 10).

Local Open Scope Q_scope.

(** The open-frame formula, used for frames 8, 9 and a two-roll frame 10. *)
Definition openRealism (s : Q) (a b : Z) : Q :=
  let s := if (a =? 0)%Z then s + gutterFirstPenalty WEIGHTS else s in
  s + (inject_Z a * openFirstBallMul WEIGHTS
       + inject_Z b * openSecondBallMul WEIGHTS).

(** The body of [for (let i = 0; i < mids.length; i++)]. *)
Definition midStep (mids : list Frame) (s : Q) (i : nat) : Q :=
  let f := nth i mids [] in
  if isStrikeFrame f then
    let s := s + strikePenalty WEIGHTS in
    if (0 <? i)%nat && isStrikeFrame (nth (i - 1) mids []) then
      s + consecutiveStrikePenalty WEIGHTS
    else s
  else if isSpareFrame f then
    let a := pin f 0 in
    s + (spareBase WEIGHTS + inject_Z a * spareFirstBallMul WEIGHTS)
  else if isOpenFrame f then
    openRealism s (pin f 0) (pin f 1)
  else s.

(** The frame-10 block of [scoreRealism], as an update of [s]. *)
Definition tenthStep (t : Frame) (s : Q) : Q :=
  if isTenthLikeStrike t then
    let b := pin t 1 in
    let c := pin t 2 in
    let s :=
      if (b =? 10)%Z && (c =? 10)%Z then s + tripleXPenalty WEIGHTS else s in
    if negb (b =? 10)%Z && (b + c =? 10)%Z then s + tenthNiceBonus WEIGHTS
    else s
  else if isTenthLikeSpare t then
    let a := pin t 0 in
    s + (spareBase WEIGHTS + inject_Z a * spareFirstBallMul WEIGHTS)
  else if (length t =? 2)%nat then
    openRealism s (pin t 0) (pin t 1)
  else s.

Definition scoreRealism (frames : Solution) : Q :=
  let '(f8, f9, f10) := frames in
  let s := 0 in
  let mids := [f8; f9] in
  let s := fold_left (midStep mids) (seq 0 (length mids)) s in
  let s := tenthStep f10 s in
  if isStrikeFrame f8 && isStrikeFrame f9 then
    s + consecutiveStrikePenalty WEIGHTS
  else s.

(** What frame 10 alone adds to the realism score. *)
Definition tenthRealism (t : Frame) : Q := tenthStep t 0.

(** [Array.prototype.sort] with a comparator is a stable sort: [A] is put
    before [B] when [cmp A B < 0], and equal elements keep their order.
    Insertion from the right end gives that order. *)
Fixpoint insertBy {A : Type} (cmp : A -> A -> Q) (x : A) (l : list A)
  : list A :=
  match l with
  | [] => [x]
  | y :: rest =>
      if Qle_bool (cmp x y) 0 then x :: y :: rest
      else y :: insertBy cmp x rest
  end.

Definition sortBy {A : Type} (cmp : A -> A -> Q) (l : list A) : list A :=
  fold_right (insertBy cmp) [] l.

(** [(A, B) => scoreRealism(B) - scoreRealism(A)]. *)
Definition byRealismDesc (A B : Solution) : Q :=
  scoreRealism B - scoreRealism A.

Local Close Scope Q_scope.

(** ** Completion search *)

(** How a loop body leaves: normally, or through [break outer]. *)
Inductive Flow := Continue | BreakOuter.

(** [for (const x of xs) body], where [body] may break out of the labelled
    outermost loop; the array [sols] is threaded through. *)
Fixpoint forOf {A : Type}
  (body : A -> list Solution -> Flow * list Solution)
  (xs : list A) (sols : list Solution) : Flow * list Solution :=
  match xs with
  | [] => (Continue, sols)
  | x :: rest =>
      match body x sols with
      | (BreakOuter, sols') => (BreakOuter, sols')
      | (Continue, sols') => forOf body rest sols'
      end
  end.

(** The body of the innermost loop. *)
Definition tryCombination (prefix : list Frame) (target : Z) (limit : nat)
  (f8 f9 f10 : Frame) (sols : list Solution) : Flow * list Solution :=
  let game := prefix ++ [f8; f9; f10] in
  let sc := scoreGame game in
  if sc =? target then
    let sols := sols ++ [(f8, f9, f10)] in
    if (limit * 3 <=? length sols)%nat then (BreakOuter, sols)
    else (Continue, sols)
  else (Continue, sols).

(** The three nested loops, frame 8 outermost; [sols] starts empty. *)
Definition searchLoop (prefix : list Frame) (target : Z) (limit : nat)
  (f8List f9List f10List : list Frame) : Flow * list Solution :=
  forOf (fun f8 =>
           forOf (fun f9 =>
                    forOf (tryCombination prefix target limit f8 f9) f10List)
                 f9List)
        f8List [].

(** [fixed ? [fixed] : POOL]. *)
Definition candidateList (fixed : option Frame) (pool : list Frame)
  : list Frame :=
  match fixed with
  | Some f => [f]
  | None => pool
  end.

(** The loops of [handleCalculate] on its pools: the flow they end with and
    the solutions recorded by then. *)
Definition enumerate (prefix : list Frame) (f8Fixed f9Fixed f10Fixed : option Frame)
  (target : Z) (limit : nat) (forbidFirstZero : bool)
  : Flow * list Solution :=
  let NORMAL_POOL := normalPool forbidFirstZero in
  let TENTH_POOL := tenthPool forbidFirstZero in
  let f8List := candidateList f8Fixed NORMAL_POOL in
  let f9List := candidateList f9Fixed NORMAL_POOL in
  let f10List := candidateList f10Fixed TENTH_POOL in
  searchLoop prefix target limit f8List f9List f10List.

(** [if (!sols.length && f8Fixed && f9Fixed && f10Fixed) ...]. *)
Definition fixedFallback (prefix : list Frame)
  (f8Fixed f9Fixed f10Fixed : option Frame) (target : Z)
  (sols : list Solution) : list Solution :=
  match sols, f8Fixed, f9Fixed, f10Fixed with
  | [], Some f8, Some f9, Some f10 =>
      let sc := scoreGame (prefix ++ [f8; f9; f10]) in
      if sc =? target then sols ++ [(f8, f9, f10)] else sols
  | _, _, _, _ => sols
  end.

(** [if (sols.length > limit) sols.length = limit]. *)
Definition truncateTo (limit : nat) (sols : list Solution) : list Solution :=
  if (limit <? length sols)%nat then firstn limit sols else sols.

(** The search of [handleCalculate] from the pools to the value handed to
    [setSolutions]; [limit] is the state the input handler clamps to
    1..200. *)
Definition search (prefix : list Frame) (f8Fixed f9Fixed f10Fixed : option Frame)
  (target : Z) (limit : nat) (forbidFirstZero preferRealism : bool)
  : list Solution :=
  let sols :=
    snd (enumerate prefix f8Fixed f9Fixed f10Fixed target limit forbidFirstZero) in
  let sols := fixedFallback prefix f8Fixed f9Fixed f10Fixed target sols in
  let sols := if preferRealism then sortBy byRealismDesc sols else sols in
  truncateTo limit sols.

(** The state of [CountPage] that [handleCalculate] reads and writes. *)
Record State := mkState {
  target : Z;
  parsedFirst10 : list Frame;
  solutions : list Solution;
  previewScore : option Z;
  limit : nat;
  preferRealism : bool;
  forbidFirstZero : bool
}.

(** [fr && fr.length ? fr : null]. *)
Definition fixedOf (fr : Frame) : option Frame :=
  match fr with
  | [] => None
  | _ => Some fr
  end.

Definition orElse (d : Frame) (fr : option Frame) : Frame :=
  match fr with
  | Some f => f
  | None => d
  end.

(** The locals [fixed], [prefix] and [f8Fixed], [f9Fixed], [f10Fixed] of
    [handleCalculate]; an index past the end of [fixed] reads [undefined],
    which is as falsy as [null]. *)
Definition fixedFrames (st : State) : list (option Frame) :=
  map fixedOf (parsedFirst10 st).

Definition fixedAt (st : State) (i : nat) : option Frame :=
  nth i (fixedFrames st) None.

Definition prefixOf (st : State) : list Frame :=
  map (orElse []) (firstn 7 (fixedFrames st)).

(** The array [sols] of [handleCalculate] when its loops are left, and how
    they were left. *)
Definition recorded (st : State) : Flow * list Solution :=
  enumerate (prefixOf st) (fixedAt st 7) (fixedAt st 8) (fixedAt st 9)
            (target st) (limit st) (forbidFirstZero st).

Definition handleCalculate (st : State) : State :=
  let fixed := fixedFrames st in
  let approx := map (orElse [0; 0]) fixed in
  let preview := Some (scoreGame approx) in
  let f8Fixed := fixedAt st 7 in
  let f9Fixed := fixedAt st 8 in
  let f10Fixed := fixedAt st 9 in
  let prefix := prefixOf st in
  let sols :=
    search prefix f8Fixed f9Fixed f10Fixed (target st) (limit st)
           (forbidFirstZero st) (preferRealism st) in
  {| target := target st;
     parsedFirst10 := parsedFirst10 st;
     solutions := sols;
     previewScore := preview;
     limit := limit st;
     preferRealism := preferRealism st;
     forbidFirstZero := forbidFirstZero st |}.

(** All combinations in the nested order of the loops that score [target]. *)
Definition matchOf (prefix : list Frame) (target : Z) (f8 f9 f10 : Frame)
  : list Solution :=
  if scoreGame (prefix ++ [f8; f9; f10]) =? target then [(f8, f9, f10)]
  else [].

Definition matches (prefix : list Frame) (target : Z)
  (f8List f9List f10List : list Frame) : list Solution :=
  flat_map (fun f8 =>
    flat_map (fun f9 =>
      flat_map (fun f10 => matchOf prefix target f8 f9 f10) f10List)
    f9List) f8List.

(** The matches over the pools [handleCalculate] enumerates. *)
Definition allMatches (prefix : list Frame)
  (f8Fixed f9Fixed f10Fixed : option Frame) (target : Z)
  (forbidFirstZero : bool) : list Solution :=
  matches prefix target
          (candidateList f8Fixed (normalPool forbidFirstZero))
          (candidateList f9Fixed (normalPool forbidFirstZero))
          (candidateList f10Fixed (tenthPool forbidFirstZero)).

(** The number of recorded solutions at which the loops are left:
    [sols.length >= limit * 3] is tested after a push, when the length is
    at least 1. *)
Definition overflowBound (limit : nat) : nat := Nat.max 1 (limit * 3).

(** What a loop (or loop body) does to [sols] when the combinations it
    visits have the matches [M], provided the bound was not yet reached
    when it starts: it records the matches in order up to the bound, and
    breaks exactly when the bound is reached. *)
Definition recordsUpTo (limit : nat) (run : list Solution -> Flow * list Solution)
  (M : list Solution) : Prop :=
  forall sols,
    (length sols < overflowBound limit)%nat ->
    run sols =
      (if (overflowBound limit <=? length (sols ++ M))%nat
       then BreakOuter else Continue,
       firstn (overflowBound limit) (sols ++ M)).

(** A state with ranking switched off and a cap of 1: seven frames 9-,
    frames 8 and 9 fixed to 9-, frame 10 free, target 91. *)
Definition unrankedState : State :=
  {| target := 91;
     parsedFirst10 := repeat [9; 0] 9 ++ [[]];
     solutions := [];
     previewScore := None;
     limit := 1;
     preferRealism := false;
     forbidFirstZero := true |}.

(** The prefix of seven gutter frames. *)
Definition gutterPrefix : list Frame := repeat [0; 0] 7.

(** A frame none of whose rolls knocked a pin down (rolls are never
    negative). *)
Definition noPins (f : Frame) : bool := sumRolls f =? 0.

(** * Properties *)

(** ** The scorer: bounds and termination *)

Section ScorerBounds.

Variable rolls : list Z.
Hypothesis Hrolls : rollsInRange rolls.

Lemma rollAt_range (i : nat) : 0 <= rollAt rolls i <= 10.
Proof.
  unfold rollAt.
  destruct (nth_error rolls i) as [v|] eqn:E; [|lia].
  apply nth_error_In in E.
  unfold rollsInRange in Hrolls. rewrite Forall_forall in Hrolls.
  now apply Hrolls.
Qed.

(** One iteration of the frame loop adds between 0 and 30 points. *)
Lemma frameStep_range (frame : Z) (st : Cursor) :
  score st <= score (frameStep rolls frame st) <= score st + 30.
Proof.
  unfold frameStep.
  pose proof (rollAt_range (rollIndex st)) as H0.
  pose proof (rollAt_range (rollIndex st + 1)) as H1.
  pose proof (rollAt_range (rollIndex st + 2)) as H2.
  pose proof (rollAt_range (rollIndex st + 2 + 1)) as H3.
  destruct (rollAt rolls (rollIndex st) =? 10) eqn:Estrike; cbn [score].
  - lia.
  - apply Z.eqb_neq in Estrike.
    destruct (rollAt rolls (rollIndex st) + rollAt rolls (rollIndex st + 1) =? 10)
      eqn:Espare;
      destruct (frame =? 10); cbn [score]; lia.
Qed.

Lemma runFrames_range (frameNos : list Z) (st : Cursor) :
  score st <= score (runFrames rolls frameNos st)
           <= score st + 30 * Z.of_nat (length frameNos).
Proof.
  revert st. induction frameNos as [|frame rest IH]; intro st.
  - cbn. lia.
  - cbn [runFrames fold_left length].
    specialize (IH (frameStep rolls frame st)). unfold runFrames in IH.
    pose proof (frameStep_range frame st). lia.
Qed.

End ScorerBounds.

Lemma scoreGame_range_of_rolls (g : list Frame) :
  rollsInRange (flattenFrames g) -> 0 <= scoreGame g <= 300.
Proof.
  intro H. unfold scoreGame.
  pose proof (runFrames_range _ H (range 1 10) startCursor) as B.
  cbn [score startCursor] in B. change (length (range 1 10)) with 10%nat in B.
  lia.
Qed.

Lemma rollsInRange_concat (g : list Frame) :
  Forall rollsInRange g -> rollsInRange (flattenFrames g).
Proof.
  unfold flattenFrames, rollsInRange.
  induction 1 as [|f rest Hf _ IH]; cbn.
  - constructor.
  - apply Forall_app. split; assumption.
Qed.

Lemma inPins_spec (x : Z) : inPins x = true <-> 0 <= x <= 10.
Proof. unfold inPins. rewrite andb_true_iff, !Z.leb_le. tauto. Qed.

Lemma validOrdinary_rolls (f : Frame) :
  validOrdinary f = true -> rollsInRange f.
Proof.
  unfold rollsInRange.
  destruct f as [|a [|b [|c r]]]; cbn; try discriminate.
  - rewrite Z.eqb_eq. intros ->. repeat constructor; lia.
  - rewrite !andb_true_iff, !inPins_spec. intros [[Ha Hb] _].
    repeat constructor; lia.
Qed.

Lemma validTenth_rolls (f : Frame) :
  validTenth f = true -> rollsInRange f.
Proof.
  unfold rollsInRange.
  destruct f as [|a [|b [|c [|d r]]]]; cbn; try discriminate.
  - rewrite !andb_true_iff, !inPins_spec. intros [[[Ha Hb] _] _].
    repeat constructor; lia.
  - rewrite !andb_true_iff, !inPins_spec. intros [[[Ha Hb] Hc] _].
    repeat constructor; lia.
Qed.

Lemma validGame_rolls (g : list Frame) :
  validGame g = true -> rollsInRange (flattenFrames g).
Proof.
  unfold validGame. rewrite !andb_true_iff, Nat.eqb_eq.
  intros [[Hlen Hord] Hten].
  apply rollsInRange_concat.
  rewrite forallb_forall in Hord.
  apply Forall_forall. intros f Hin.
  apply In_nth with (d := []) in Hin. destruct Hin as [n [Hn <-]].
  unfold Frame in *.
  destruct (Nat.eq_dec n 9) as [->|Hne].
  - now apply validTenth_rolls.
  - apply validOrdinary_rolls, Hord.
    assert (Hlt : (n <? 9)%nat = true) by (apply Nat.ltb_lt; lia).
    replace (nth n g []) with (nth n (firstn 9 g) [])
      by (rewrite nth_firstn, Hlt; reflexivity).
    apply nth_In. rewrite length_firstn. lia.
Qed.

(** The guarded loop finishes exactly when the fuel covers the frames that
    remain up to frame 10. *)
Lemma forFrames_run (rolls : list Z) (n : nat) :
  forall (frame : Z) (st : Cursor) (fuel : nat),
    frame + Z.of_nat n = 11 ->
    forFrames fuel rolls frame st =
      if (n <=? fuel)%nat then Some (runFrames rolls (upFrom frame n) st)
      else None.
Proof.
  induction n as [|n IH]; intros frame st fuel Hfr.
  - assert (frame = 11) as -> by lia.
    destruct fuel; reflexivity.
  - destruct fuel as [|fuel]; cbn [forFrames].
    + replace (frame <=? 10) with true by (symmetry; apply Z.leb_le; lia).
      reflexivity.
    + replace (frame <=? 10) with true by (symmetry; apply Z.leb_le; lia).
      rewrite IH by lia. cbn [Nat.leb upFrom runFrames fold_left].
      reflexivity.
Qed.

Lemma rollAt_past_end (rolls : list Z) (k : nat) :
  rollAt rolls (length rolls + k) = 0.
Proof.
  unfold rollAt.
  replace (nth_error rolls (length rolls + k)) with (@None Z); [reflexivity|].
  symmetry. apply nth_error_None. lia.
Qed.

(** C3: a ten-frame game whose frames satisfy the frame invariants scores
    between 0 and 300; the all-gutter game scores 0 and the game of twelve
    strikes scores 300. *)
Theorem scoreGame_in_0_300 (g : list Frame) (Hvalid : validGame g = true) :
  0 <= scoreGame g <= 300
  /\ (validGame gutterGame = true /\ scoreGame gutterGame = 0)
  /\ (validGame perfectGame = true /\ scoreGame perfectGame = 300).
Proof.
  split; [|split].
  - apply scoreGame_range_of_rolls, validGame_rolls, Hvalid.
  - split; reflexivity.
  - split; reflexivity.
Qed.

Lemma scoreGame_in_0_300_witness :
  validGame perfectGame = true /\ 0 <= scoreGame perfectGame <= 300.
Proof.
  split; [reflexivity|].
  exact (proj1 (scoreGame_in_0_300 perfectGame eq_refl)).
Defined.

(** C10: on any list of frames (of any number and any lengths) the frame
    loop of scoreGame ends after exactly ten iterations, never fewer, with
    the score scoreGame returns; a roll looked up at or past the end of the
    rolls is read as 0. *)
Theorem scoreGame_total (frames : list Frame) (k : nat) :
  (exists st,
      forFrames (10 + k) (flattenFrames frames) 1 startCursor = Some st
      /\ score st = scoreGame frames)
  /\ forFrames (9 - k) (flattenFrames frames) 1 startCursor = None
  /\ rollAt (flattenFrames frames) (length (flattenFrames frames) + k) = 0.
Proof.
  split; [|split].
  - rewrite (forFrames_run _ 10) by reflexivity.
    replace (10 <=? 10 + k)%nat with true by (symmetry; apply Nat.leb_le; lia).
    eexists. split; [reflexivity|].
    unfold scoreGame. change (range 1 10) with (upFrom 1 10). reflexivity.
  - rewrite (forFrames_run _ 10) by reflexivity.
    replace (10 <=? 9 - k)%nat with false
      by (symmetry; apply Nat.leb_gt; lia).
    reflexivity.
  - apply rollAt_past_end.
Qed.

(** ** The scorer against the official rules *)

Lemma rollAt_app_r (pre l : list Z) (k : nat) :
  rollAt (pre ++ l) (length pre + k) = rollAt l k.
Proof.
  unfold rollAt. rewrite nth_error_app2 by lia.
  replace (length pre + k - length pre)%nat with k by lia. reflexivity.
Qed.

Lemma rollAt_app_0 (pre l : list Z) :
  rollAt (pre ++ l) (length pre) = rollAt l 0.
Proof. rewrite <- (rollAt_app_r pre l 0). f_equal. lia. Qed.

Lemma frameStep_ordinary (pre later : list Z) (f : Frame) (frame s : Z) :
  strictOrdinary f = true ->
  (frame =? 10) = false ->
  frameStep (pre ++ f ++ later) frame (mkCursor s (length pre)) =
    mkCursor (s + ordinaryWorth f later) (length (pre ++ f)).
Proof.
  intros Hf Hframe. unfold frameStep. cbn [rollIndex score].
  rewrite rollAt_app_0, !rollAt_app_r, length_app.
  destruct f as [|a [|b [|c r]]]; try discriminate; cbn in Hf.
  - apply Z.eqb_eq in Hf. subst a.
    change (rollAt ([10] ++ later) 0) with 10.
    change (rollAt ([10] ++ later) 1) with (rollAt later 0).
    change (rollAt ([10] ++ later) 2) with (rollAt later 1).
    cbn [Z.eqb Pos.eqb ordinaryWorth length]. reflexivity.
  - rewrite !andb_true_iff, Z.ltb_lt in Hf.
    destruct Hf as [[_ Ha] _].
    change (rollAt ([a; b] ++ later) 0) with a.
    change (rollAt ([a; b] ++ later) 1) with b.
    change (rollAt ([a; b] ++ later) 2) with (rollAt later 0).
    replace (a =? 10) with false by (symmetry; apply Z.eqb_neq; lia).
    rewrite Hframe. cbn [ordinaryWorth length].
    destruct (a + b =? 10); reflexivity.
Qed.

Lemma runFrames_ordinary (later : list Z) (fs : list Frame) :
  forall (pre : list Z) (frame s : Z),
    forallb strictOrdinary fs = true ->
    frame + Z.of_nat (length fs) <= 10 ->
    runFrames (pre ++ flattenFrames fs ++ later) (upFrom frame (length fs))
              (mkCursor s (length pre)) =
      mkCursor (s + worthAll fs later) (length (pre ++ flattenFrames fs)).
Proof.
  induction fs as [|f rest IH]; intros pre frame s Hfs Hframe.
  - cbn. rewrite app_nil_r. f_equal. lia.
  - cbn [forallb] in Hfs. apply andb_true_iff in Hfs. destruct Hfs as [Hf Hrest].
    cbn [length] in Hframe.
    cbn [length upFrom runFrames fold_left flattenFrames concat worthAll].
    rewrite <- (app_assoc f).
    rewrite frameStep_ordinary
      by (assumption || (apply Z.eqb_neq; lia)).
    specialize (IH (pre ++ f) (frame + 1) (s + ordinaryWorth f (concat rest ++ later))
                   Hrest ltac:(lia)).
    unfold runFrames, flattenFrames in IH.
    rewrite <- !app_assoc in IH. rewrite IH.
    f_equal. unfold flattenFrames. lia.
Qed.

Lemma frameStep_tenth (pre : list Z) (f10 : Frame) (s : Z) :
  validTenth f10 = true ->
  score (frameStep (pre ++ f10) 10 (mkCursor s (length pre))) =
    s + sumRolls f10 + doubleCounted f10.
Proof.
  intro Hf. unfold frameStep. cbn [rollIndex score].
  rewrite rollAt_app_0, !rollAt_app_r.
  replace (length pre + 2 + 1)%nat with (length pre + 3)%nat by lia.
  rewrite !rollAt_app_r.
  destruct f10 as [|a [|b [|c [|d r]]]]; try discriminate; cbn in Hf;
    rewrite !andb_true_iff in Hf.
  - destruct Hf as [[_ Ha] _]. apply Z.ltb_lt in Ha.
    change (rollAt [a; b] 0) with a. change (rollAt [a; b] 1) with b.
    change (rollAt [a; b] 2) with 0.
    replace (a =? 10) with false by (symmetry; apply Z.eqb_neq; lia).
    cbn [Z.eqb Pos.eqb sumRolls fold_right doubleCounted].
    destruct (a + b =? 10) eqn:E; cbn [score]; [apply Z.eqb_eq in E|]; lia.
  - destruct Hf as [_ Hshape].
    change (rollAt [a; b; c] 0) with a. change (rollAt [a; b; c] 1) with b.
    change (rollAt [a; b; c] 2) with c. change (rollAt [a; b; c] 3) with 0.
    cbn [sumRolls fold_right doubleCounted].
    destruct (a =? 10) eqn:Ea; cbn [score].
    + apply Z.eqb_eq in Ea. lia.
    + rewrite Hshape. cbn [Z.eqb Pos.eqb score]. apply Z.eqb_eq in Hshape. lia.
Qed.

Lemma officialScore_split (fs : list Frame) (f10 : Frame) :
  officialScore (fs ++ [f10]) = worthAll fs f10 + sumRolls f10.
Proof.
  induction fs as [|f rest IH]; [reflexivity|].
  cbn [app worthAll].
  replace (officialScore (f :: rest ++ [f10]))
    with (ordinaryWorth f (flattenFrames (rest ++ [f10]))
          + officialScore (rest ++ [f10]))
    by (destruct rest; reflexivity).
  rewrite IH. unfold flattenFrames. rewrite concat_app. cbn [concat].
  rewrite app_nil_r. lia.
Qed.

(** On a scorecard of nine frames and a valid tenth frame, [scoreGame]
    returns the official total plus, when the tenth frame is a spare, its
    bonus roll a second time. *)
Lemma scoreGame_vs_official (fs : list Frame) (f10 : Frame) :
  length fs = 9%nat ->
  forallb strictOrdinary fs = true ->
  validTenth f10 = true ->
  scoreGame (fs ++ [f10]) = officialScore (fs ++ [f10]) + doubleCounted f10.
Proof.
  intros Hlen Hfs Hf10.
  unfold scoreGame.
  change (range 1 10) with (upFrom 1 9 ++ [10]).
  unfold runFrames. rewrite fold_left_app. cbn [fold_left].
  unfold flattenFrames. rewrite concat_app. cbn [concat]. rewrite app_nil_r.
  pose proof (runFrames_ordinary f10 fs [] 1 0 Hfs ltac:(lia)) as H.
  unfold runFrames, flattenFrames, startCursor in *.
  rewrite Hlen in H. cbn [app length] in H. rewrite H.
  rewrite frameStep_tenth by assumption.
  rewrite officialScore_split. lia.
Qed.

(** C1: the game of nine gutter frames and a tenth frame 5 / 3 is worth
    13 by the official rules (and the tenth frame 10 + 3); scoreGame
    returns 16, counting the bonus roll of the tenth-frame spare twice. *)
Theorem tenth_frame_spare_counted_twice :
  validGame spareFinishGame = true
  /\ officialScore spareFinishGame = 13
  /\ scoreGame spareFinishGame = 16
  /\ scoreGame spareFinishGame <> officialScore spareFinishGame.
Proof. repeat split; try reflexivity. discriminate. Qed.

(** ** The candidate generators *)

Lemma normalPool_valid (forbidFirstZero : bool) (f : Frame) :
  In f (normalPool forbidFirstZero) -> validOrdinary f = true.
Proof.
  revert f. apply forallb_forall.
  destruct forbidFirstZero; vm_compute; reflexivity.
Qed.

Lemma tenthPool_valid (forbidFirstZero : bool) (f : Frame) :
  In f (tenthPool forbidFirstZero) -> validTenth f = true.
Proof.
  revert f. apply forallb_forall.
  destruct forbidFirstZero; vm_compute; reflexivity.
Qed.

(** C5: the ordinary-frame pool has 66 frames without the first-roll-zero
    ban and 55 frames with it. *)
Theorem ordinary_pool_sizes :
  length (normalPool false) = 66%nat /\ length (normalPool true) = 55%nat.
Proof. split; reflexivity. Qed.

(** C7: every frame of the two ordinary generators satisfies the invariant
    of frames 1-9, and every frame of the two tenth-frame generators
    satisfies the invariant of frame 10. *)
Theorem candidates_satisfy_invariants (f : Frame) :
  (In f generateNormalFrameCandidates_NoFilter
   \/ In f generateNormalFrameCandidates_FilterFirstZero ->
   validOrdinary f = true)
  /\ (In f generateTenthFrameCandidates_NoFilter
      \/ In f generateTenthFrameCandidates_FilterFirstZero ->
      validTenth f = true).
Proof.
  split; intros [H|H].
  - now apply (normalPool_valid false).
  - now apply (normalPool_valid true).
  - now apply (tenthPool_valid false).
  - now apply (tenthPool_valid true).
Qed.

Lemma candidates_satisfy_invariants_witness :
  validOrdinary [1; 9] = true /\ validTenth [10; 3; 7] = true.
Proof.
  split.
  - apply (proj1 (candidates_satisfy_invariants [1; 9])).
    right. vm_compute. tauto.
  - apply (proj2 (candidates_satisfy_invariants [10; 3; 7])).
    right. vm_compute. tauto.
Defined.

(** ** The realism ranking *)

Lemma openRealism_shift (s : Q) (a b : Z) :
  (openRealism s a b == s + openRealism 0 a b)%Q.
Proof. unfold openRealism. destruct (a =? 0); ring. Qed.

(** The frame-10 block adds an amount that does not depend on the score
    accumulated before it. *)
Lemma tenthStep_shift (t : Frame) (s : Q) :
  (tenthStep t s == s + tenthRealism t)%Q.
Proof.
  unfold tenthRealism, tenthStep.
  destruct (isTenthLikeStrike t).
  - destruct ((pin t 1 =? 10) && (pin t 2 =? 10));
      destruct (negb (pin t 1 =? 10) && (pin t 1 + pin t 2 =? 10)); ring.
  - destruct (isTenthLikeSpare t); [ring|].
    destruct (length t =? 2)%nat; [apply openRealism_shift|ring].
Qed.

(** C6: with strikes in frames 8 and 9 the realism score is -14 plus what
    frame 10 adds: -3 for each strike, and the consecutive-strike penalty
    of -4 once inside the loop over frames 8-9 and once more in the check
    after frame 10. *)
Theorem scoreRealism_two_strikes (f10 : Frame) :
  (scoreRealism ([10%Z], [10%Z], f10) == -14 + tenthRealism f10)%Q
  /\ (scoreRealism ([10%Z], [10%Z], f10)
      == strikePenalty WEIGHTS + strikePenalty WEIGHTS
         + consecutiveStrikePenalty WEIGHTS + tenthRealism f10
         + consecutiveStrikePenalty WEIGHTS)%Q
  /\ (fold_left (midStep [[10%Z]; [10%Z]]) (seq 0 2) 0
      == strikePenalty WEIGHTS + strikePenalty WEIGHTS
         + consecutiveStrikePenalty WEIGHTS)%Q.
Proof.
  assert (Hmids : (fold_left (midStep [[10%Z]; [10%Z]]) (seq 0 2) 0
                   == -3 + -3 + -4)%Q) by reflexivity.
  assert (Hall : (scoreRealism ([10%Z], [10%Z], f10)
                  == -3 + -3 + -4 + tenthRealism f10 + -4)%Q).
  { unfold scoreRealism.
    change (isStrikeFrame [10%Z] && isStrikeFrame [10%Z]) with true.
    cbv iota.
    rewrite tenthStep_shift.
    change (length [[10%Z]; [10%Z]]) with 2%nat.
    rewrite Hmids. reflexivity. }
  split; [|split].
  - rewrite Hall. ring.
  - rewrite Hall. reflexivity.
  - rewrite Hmids. reflexivity.
Qed.

(** ** The completion search *)

Section SearchLoop.

Variable limit : nat.

Lemma tryCombination_records (prefix : list Frame) (target : Z)
  (f8 f9 f10 : Frame) :
  recordsUpTo limit (tryCombination prefix target limit f8 f9 f10)
              (matchOf prefix target f8 f9 f10).
Proof.
  intros sols Hlen. unfold tryCombination, matchOf.
  destruct (scoreGame (prefix ++ [f8; f9; f10]) =? target).
  - assert (Hl : length (sols ++ [(f8, f9, f10)]) = S (length sols))
      by (rewrite length_app; cbn; lia).
    rewrite firstn_all2 by lia.
    destruct (limit * 3 <=? length (sols ++ [(f8, f9, f10)]))%nat eqn:E1;
      destruct (overflowBound limit <=? length (sols ++ [(f8, f9, f10)]))%nat
        eqn:E2; try reflexivity; exfalso;
      [apply Nat.leb_le in E1; apply Nat.leb_gt in E2
      |apply Nat.leb_gt in E1; apply Nat.leb_le in E2];
      unfold overflowBound in *; lia.
  - rewrite app_nil_r. rewrite firstn_all2 by lia.
    replace (overflowBound limit <=? length sols)%nat with false
      by (symmetry; apply Nat.leb_gt; lia).
    reflexivity.
Qed.

Lemma forOf_records {A : Type}
  (body : A -> list Solution -> Flow * list Solution)
  (G : A -> list Solution) (xs : list A) :
  (forall x, recordsUpTo limit (body x) (G x)) ->
  recordsUpTo limit (forOf body xs) (flat_map G xs).
Proof.
  intro Hbody. induction xs as [|x rest IH]; intros sols Hlen.
  - cbn [forOf flat_map]. rewrite app_nil_r. rewrite firstn_all2 by lia.
    replace (overflowBound limit <=? length sols)%nat with false
      by (symmetry; apply Nat.leb_gt; lia).
    reflexivity.
  - cbn [forOf flat_map]. rewrite (Hbody x sols Hlen).
    destruct (overflowBound limit <=? length (sols ++ G x))%nat eqn:E.
    + apply Nat.leb_le in E.
      replace (overflowBound limit <=? length (sols ++ G x ++ flat_map G rest))%nat
        with true
        by (symmetry; apply Nat.leb_le; rewrite app_assoc, length_app; lia).
      f_equal. rewrite (app_assoc sols).
      rewrite (firstn_app (overflowBound limit) (sols ++ G x)).
      replace (overflowBound limit - length (sols ++ G x))%nat with 0%nat by lia.
      cbn [firstn]. now rewrite app_nil_r.
    + apply Nat.leb_gt in E.
      rewrite firstn_all2 by lia.
      rewrite (IH (sols ++ G x) E). now rewrite <- app_assoc.
Qed.

Lemma searchLoop_records (prefix : list Frame) (target : Z)
  (f8List f9List f10List : list Frame) :
  searchLoop prefix target limit f8List f9List f10List =
    let M := matches prefix target f8List f9List f10List in
    (if (overflowBound limit <=? length M)%nat then BreakOuter else Continue,
     firstn (overflowBound limit) M).
Proof.
  unfold searchLoop.
  assert (H : recordsUpTo limit
                (forOf (fun f8 =>
                   forOf (fun f9 =>
                     forOf (tryCombination prefix target limit f8 f9) f10List)
                   f9List) f8List)
                (matches prefix target f8List f9List f10List)).
  { unfold matches.
    apply forOf_records. intro f8.
    apply forOf_records. intro f9.
    apply forOf_records. intro f10.
    apply tryCombination_records. }
  rewrite (H []); [reflexivity|].
  unfold overflowBound. cbn [length]. lia.
Qed.

End SearchLoop.

Lemma enumerate_records (prefix : list Frame)
  (f8Fixed f9Fixed f10Fixed : option Frame) (target : Z) (limit : nat)
  (forbidFirstZero : bool) :
  enumerate prefix f8Fixed f9Fixed f10Fixed target limit forbidFirstZero =
    let M := allMatches prefix f8Fixed f9Fixed f10Fixed target forbidFirstZero in
    (if (overflowBound limit <=? length M)%nat then BreakOuter else Continue,
     firstn (overflowBound limit) M).
Proof. unfold enumerate, allMatches. apply searchLoop_records. Qed.

Lemma truncateTo_firstn (limit : nat) (sols : list Solution) :
  truncateTo limit sols = firstn limit sols.
Proof.
  unfold truncateTo.
  destruct (limit <? length sols)%nat eqn:E; [reflexivity|].
  apply Nat.ltb_ge in E. symmetry. now apply firstn_all2.
Qed.

Lemma firstn_singleton {A : Type} (n : nat) (x : A) :
  (1 <= n)%nat -> firstn n [x] = [x].
Proof. intro H. apply firstn_all2. cbn. lia. Qed.

Lemma overflowBound_pos (limit : nat) : (1 <= overflowBound limit)%nat.
Proof. unfold overflowBound. lia. Qed.

(** The re-check of an all-fixed combination after the loops never adds
    anything: the loops have already tried that one combination. *)
Lemma fixedFallback_noop (prefix : list Frame)
  (f8Fixed f9Fixed f10Fixed : option Frame) (target : Z) (limit : nat)
  (forbidFirstZero : bool) :
  let sols :=
    firstn (overflowBound limit)
           (allMatches prefix f8Fixed f9Fixed f10Fixed target forbidFirstZero) in
  fixedFallback prefix f8Fixed f9Fixed f10Fixed target sols = sols.
Proof.
  cbv zeta. unfold fixedFallback.
  destruct f8Fixed as [f8|], f9Fixed as [f9|], f10Fixed as [f10|];
    try (destruct (firstn _ _); reflexivity).
  unfold allMatches, matches, candidateList. cbn [flat_map].
  rewrite !app_nil_r. unfold matchOf.
  destruct (scoreGame (prefix ++ [f8; f9; f10]) =? target) eqn:E.
  - pose proof (overflowBound_pos limit) as Hb.
    destruct (overflowBound limit); [lia|]. reflexivity.
  - rewrite firstn_nil. reflexivity.
Qed.

(** What [search] returns, in terms of the matches in enumeration order. *)
Lemma search_characterised (prefix : list Frame)
  (f8Fixed f9Fixed f10Fixed : option Frame) (target : Z) (limit : nat)
  (forbidFirstZero preferRealism : bool) :
  search prefix f8Fixed f9Fixed f10Fixed target limit forbidFirstZero
         preferRealism =
    let M := allMatches prefix f8Fixed f9Fixed f10Fixed target forbidFirstZero in
    let sols := firstn (overflowBound limit) M in
    firstn limit (if preferRealism then sortBy byRealismDesc sols else sols).
Proof.
  unfold search. rewrite enumerate_records. cbv zeta. cbn [snd].
  rewrite fixedFallback_noop. apply truncateTo_firstn.
Qed.

(** Without ranking the result is the first [limit] matches, however far
    past [limit] the loops went on recording. *)
Lemma search_unranked (prefix : list Frame)
  (f8Fixed f9Fixed f10Fixed : option Frame) (target : Z) (limit : nat)
  (forbidFirstZero : bool) :
  search prefix f8Fixed f9Fixed f10Fixed target limit forbidFirstZero false =
    firstn limit
           (allMatches prefix f8Fixed f9Fixed f10Fixed target forbidFirstZero).
Proof.
  rewrite search_characterised. cbv zeta.
  rewrite firstn_firstn. f_equal. unfold overflowBound. lia.
Qed.

(** What [handleCalculate] hands to [setSolutions] is the search on the
    locals it derives from the state, and the preview score is always set
    (the [catch] branch is never taken: [scoreGame] does not throw). *)
Lemma handleCalculate_solutions (st : State) :
  solutions (handleCalculate st) =
    search (prefixOf st) (fixedAt st 7) (fixedAt st 8) (fixedAt st 9)
           (target st) (limit st) (forbidFirstZero st) (preferRealism st)
  /\ previewScore (handleCalculate st) =
       Some (scoreGame (map (orElse [0; 0]) (fixedFrames st))).
Proof. split; reflexivity. Qed.

(** The loops that [search] runs for a state are the ones [recorded]
    names. *)
Lemma handleCalculate_recorded (st : State) :
  solutions (handleCalculate st) =
    truncateTo (limit st)
      ((if preferRealism st then sortBy byRealismDesc else fun sols => sols)
         (fixedFallback (prefixOf st) (fixedAt st 7) (fixedAt st 8)
                        (fixedAt st 9) (target st) (snd (recorded st)))).
Proof. cbn [handleCalculate solutions]. unfold search, recorded.
       destruct (preferRealism st); reflexivity. Qed.

(** C2 (as the code has it): the loops are left as soon as the recorded
    solutions number three times the cap (after the first one when the cap
    is 0), whatever the ranking toggle of the state is: what they have
    recorded is the first max(1, 3 * cap) matches in enumeration order, and
    they break exactly when there are that many matches. *)
Theorem enumeration_stops_at_three_times_cap (st : State) :
  let M :=
    allMatches (prefixOf st) (fixedAt st 7) (fixedAt st 8) (fixedAt st 9)
               (target st) (forbidFirstZero st) in
  let bound := Nat.max 1 (limit st * 3) in
  recorded st =
    (if (bound <=? length M)%nat then BreakOuter else Continue,
     firstn bound M).
Proof. cbv zeta. unfold recorded. apply enumerate_records. Qed.

(** C2, as stated, fails: with ranking disabled and cap 1 the loops go on
    past the first recorded solution and stop only at the third. *)
Lemma enumeration_unranked_passes_cap :
  preferRealism unrankedState = false
  /\ limit unrankedState = 1%nat
  /\ recorded unrankedState =
       (BreakOuter,
        [([9; 0], [9; 0], [1; 9; 0]);
         ([9; 0], [9; 0], [2; 8; 0]);
         ([9; 0], [9; 0], [3; 7; 0])])
  /\ ~ (length (snd (recorded unrankedState)) <= limit unrankedState)%nat.
Proof.
  assert (H : recorded unrankedState =
       (BreakOuter,
        [([9; 0], [9; 0], [1; 9; 0]);
         ([9; 0], [9; 0], [2; 8; 0]);
         ([9; 0], [9; 0], [3; 7; 0])])) by (vm_compute; reflexivity).
  repeat split; try assumption.
  rewrite H. cbn. lia.
Qed.

(** *** Lists of matches *)

Lemma flat_map_all_nil {A B : Type} (G : A -> list B) (xs : list A) :
  (forall x, In x xs -> G x = []) -> flat_map G xs = [].
Proof.
  induction xs as [|x rest IH]; intro H; cbn; [reflexivity|].
  rewrite (H x) by now left. apply IH. intros y Hy. apply H. now right.
Qed.

Lemma flat_map_filter {A B : Type} (p : A -> bool) (G : A -> list B)
  (xs : list A) :
  (forall x, In x xs -> p x = false -> G x = []) ->
  flat_map G xs = flat_map G (filter p xs).
Proof.
  induction xs as [|x rest IH]; intro H; [reflexivity|].
  cbn [flat_map filter].
  rewrite IH by (intros y Hy; apply H; now right).
  destruct (p x) eqn:E; [reflexivity|].
  now rewrite (H x (or_introl eq_refl) E).
Qed.

Lemma matchOf_nil (prefix : list Frame) (target : Z) (f8 f9 f10 : Frame) :
  scoreGame (prefix ++ [f8; f9; f10]) <> target ->
  matchOf prefix target f8 f9 f10 = [].
Proof.
  intro H. unfold matchOf.
  destruct (scoreGame (prefix ++ [f8; f9; f10]) =? target) eqn:E;
    [|reflexivity].
  apply Z.eqb_eq in E. contradiction.
Qed.

Lemma matches_nil (prefix : list Frame) (target : Z)
  (f8List f9List f10List : list Frame) :
  (forall f8 f9 f10,
      In f8 f8List -> In f9 f9List -> In f10 f10List ->
      scoreGame (prefix ++ [f8; f9; f10]) <> target) ->
  matches prefix target f8List f9List f10List = [].
Proof.
  intro H. unfold matches.
  apply flat_map_all_nil. intros f8 H8.
  apply flat_map_all_nil. intros f9 H9.
  apply flat_map_all_nil. intros f10 H10.
  apply matchOf_nil. now apply H.
Qed.

Lemma candidateList_in (fixed : option Frame) (pool : list Frame) (f : Frame) :
  In f (candidateList fixed pool) -> fixed = Some f \/ (fixed = None /\ In f pool).
Proof.
  destruct fixed as [g|]; cbn.
  - intros [->|[]]. now left.
  - intro H. right. now split.
Qed.

(** *** Scenario: seven gutter frames, target 0 *)

Lemma normalPool_strict (forbidFirstZero : bool) (f : Frame) :
  In f (normalPool forbidFirstZero) -> strictOrdinary f = true.
Proof.
  revert f. apply forallb_forall.
  destruct forbidFirstZero; vm_compute; reflexivity.
Qed.

Lemma sumRolls_nonneg (f : Frame) : rollsInRange f -> 0 <= sumRolls f.
Proof.
  unfold rollsInRange, sumRolls.
  induction 1 as [|x r Hx _ IH]; cbn [fold_right]; lia.
Qed.

(** A frame of 1..9 is worth at least the pins of its own rolls. *)
Lemma ordinaryWorth_ge (f : Frame) (later : list Z) :
  strictOrdinary f = true -> rollsInRange later ->
  sumRolls f <= ordinaryWorth f later.
Proof.
  intros Hf Hl.
  pose proof (rollAt_range later Hl 0) as H0.
  pose proof (rollAt_range later Hl 1) as H1.
  destruct f as [|a [|b [|c r]]]; try discriminate;
    cbn [ordinaryWorth sumRolls fold_right].
  - lia.
  - destruct (a + b =? 10) eqn:E; [apply Z.eqb_eq in E|]; lia.
Qed.

Lemma doubleCounted_nonneg (f10 : Frame) :
  rollsInRange f10 -> 0 <= doubleCounted f10.
Proof.
  unfold rollsInRange. intro H.
  destruct f10 as [|a [|b [|c [|d r]]]]; cbn [doubleCounted]; try lia.
  destruct (a =? 10); [lia|].
  rewrite Forall_forall in H.
  specialize (H c (or_intror (or_intror (or_introl eq_refl)))). lia.
Qed.

(** After seven gutter frames a completion from the pools scores at least
    the pins of its own rolls. *)
Lemma gutter_score_ge (forbidFirstZero : bool) (f8 f9 f10 : Frame) :
  In f8 (normalPool forbidFirstZero) ->
  In f9 (normalPool forbidFirstZero) ->
  In f10 (tenthPool forbidFirstZero) ->
  (0 <= sumRolls f8 /\ 0 <= sumRolls f9 /\ 0 <= sumRolls f10)
  /\ sumRolls f8 + sumRolls f9 + sumRolls f10
     <= scoreGame (gutterPrefix ++ [f8; f9; f10]).
Proof.
  intros I8 I9 I10.
  pose proof (normalPool_strict _ _ I8) as S8.
  pose proof (normalPool_strict _ _ I9) as S9.
  pose proof (tenthPool_valid _ _ I10) as V10.
  pose proof (validOrdinary_rolls _ (normalPool_valid _ _ I8)) as R8.
  pose proof (validOrdinary_rolls _ (normalPool_valid _ _ I9)) as R9.
  pose proof (validTenth_rolls _ V10) as R10.
  split.
  { repeat split; now apply sumRolls_nonneg. }
  change (gutterPrefix ++ [f8; f9; f10])
    with ((gutterPrefix ++ [f8; f9]) ++ [f10]).
  rewrite scoreGame_vs_official;
    [|reflexivity
     |unfold gutterPrefix; cbn [repeat app forallb]; rewrite S8, S9; reflexivity
     |assumption].
  rewrite officialScore_split.
  assert (Hw : worthAll (gutterPrefix ++ [f8; f9]) f10 =
               ordinaryWorth f8 (f9 ++ f10) + ordinaryWorth f9 f10).
  { unfold gutterPrefix.
    cbn [repeat app worthAll ordinaryWorth flattenFrames concat Z.add Z.eqb].
    rewrite app_nil_r. lia. }
  rewrite Hw.
  assert (R910 : rollsInRange (f9 ++ f10)) by (apply Forall_app; now split).
  pose proof (ordinaryWorth_ge f8 (f9 ++ f10) S8 R910).
  pose proof (ordinaryWorth_ge f9 f10 S9 R10).
  pose proof (doubleCounted_nonneg f10 R10).
  lia.
Qed.

Lemma gutter_matches_filtered :
  allMatches gutterPrefix None None None 0 true = [].
Proof.
  unfold allMatches. cbn [candidateList].
  assert (Hfirst : forall f, In f (normalPool true) -> (1 <=? sumRolls f) = true)
    by (apply forallb_forall; vm_compute; reflexivity).
  apply matches_nil. intros f8 f9 f10 I8 I9 I10.
  pose proof (gutter_score_ge true f8 f9 f10 I8 I9 I10) as [[_ [G9 G10]] G].
  specialize (Hfirst f8 I8). apply Z.leb_le in Hfirst.
  lia.
Qed.

Lemma gutter_matches_unfiltered :
  allMatches gutterPrefix None None None 0 false = [([0; 0], [0; 0], [0; 0])].
Proof.
  unfold allMatches, matches. cbn [candidateList].
  rewrite (flat_map_filter noPins).
  - change (filter noPins (normalPool false)) with [[0; 0]].
    cbn [flat_map]. rewrite app_nil_r.
    rewrite (flat_map_filter noPins).
    + change (filter noPins (normalPool false)) with [[0; 0]].
      cbn [flat_map]. rewrite app_nil_r.
      rewrite (flat_map_filter noPins).
      * change (filter noPins (tenthPool false)) with [[0; 0]].
        reflexivity.
      * intros f10 I10 E. unfold noPins in E. apply Z.eqb_neq in E.
        apply matchOf_nil. intro Es.
        assert (I0 : In [0; 0] (normalPool false))
          by (vm_compute; tauto).
        pose proof (gutter_score_ge false _ _ f10 I0 I0 I10) as [[_ [_ G10]] G].
        cbn [sumRolls fold_right] in G. lia.
    + intros f9 I9 E. unfold noPins in E. apply Z.eqb_neq in E.
      apply flat_map_all_nil. intros f10 I10. apply matchOf_nil. intro Es.
      assert (I0 : In [0; 0] (normalPool false))
        by (vm_compute; tauto).
      pose proof (gutter_score_ge false _ f9 f10 I0 I9 I10)
        as [[_ [G9 G10]] G].
      cbn [sumRolls fold_right] in G. lia.
  - intros f8 I8 E. unfold noPins in E. apply Z.eqb_neq in E.
    apply flat_map_all_nil. intros f9 I9.
    apply flat_map_all_nil. intros f10 I10. apply matchOf_nil. intro Es.
    pose proof (gutter_score_ge false f8 f9 f10 I8 I9 I10)
      as [[G8 [G9 G10]] G].
    lia.
Qed.

(** C4: after seven frames [0,0], with frames 8, 9 and 10 free and target
    0, the search returns nothing when a first roll of 0 is forbidden, and
    exactly the one solution [0,0] [0,0] [0,0] when it is allowed (for any
    cap of at least 1, ranked or not). *)
Theorem gutter_scenario (limit : nat) (preferRealism : bool)
  (Hcap : (1 <= limit)%nat) :
  search gutterPrefix None None None 0 limit true preferRealism = []
  /\ search gutterPrefix None None None 0 limit false preferRealism
     = [([0; 0], [0; 0], [0; 0])].
Proof.
  rewrite !search_characterised. cbv zeta.
  rewrite gutter_matches_filtered, gutter_matches_unfiltered.
  rewrite firstn_nil.
  rewrite (firstn_singleton (overflowBound limit))
    by apply overflowBound_pos.
  destruct preferRealism; cbn [sortBy fold_right insertBy];
    rewrite firstn_nil, firstn_singleton by assumption; split; reflexivity.
Qed.

Lemma gutter_scenario_witness :
  search gutterPrefix None None None 0 50 true true = []
  /\ search gutterPrefix None None None 0 50 false true
     = [([0; 0], [0; 0], [0; 0])].
Proof. apply (gutter_scenario 50 true). lia. Defined.

(** *** The cap *)

Lemma search_length (prefix : list Frame)
  (f8Fixed f9Fixed f10Fixed : option Frame) (target : Z) (limit : nat)
  (forbidFirstZero preferRealism : bool) :
  (length (search prefix f8Fixed f9Fixed f10Fixed target limit
                  forbidFirstZero preferRealism) <= limit)%nat.
Proof.
  rewrite search_characterised. cbv zeta. apply firstn_le_length.
Qed.

(** When the loops end without a break they have recorded every match. *)
Lemma enumerate_complete (prefix : list Frame)
  (f8Fixed f9Fixed f10Fixed : option Frame) (target : Z) (limit : nat)
  (forbidFirstZero : bool) :
  fst (enumerate prefix f8Fixed f9Fixed f10Fixed target limit forbidFirstZero)
    = Continue ->
  firstn (overflowBound limit)
         (allMatches prefix f8Fixed f9Fixed f10Fixed target forbidFirstZero)
  = allMatches prefix f8Fixed f9Fixed f10Fixed target forbidFirstZero.
Proof.
  rewrite enumerate_records. cbv zeta. cbn [fst].
  destruct (overflowBound limit <=? length _)%nat eqn:E; [discriminate|].
  intros _. apply Nat.leb_gt in E. apply firstn_all2. lia.
Qed.

(** C8: the search returns at most [k] solutions for cap [k]; and when
    neither the run with cap [k] nor the run with cap [k + 1] left its
    loops through the overflow break, the result for cap [k] is the first
    [k] elements of the result for cap [k + 1]. *)
Theorem cap_monotone (prefix : list Frame)
  (f8Fixed f9Fixed f10Fixed : option Frame) (target : Z) (k : nat)
  (forbidFirstZero preferRealism : bool) :
  (length (search prefix f8Fixed f9Fixed f10Fixed target k
                  forbidFirstZero preferRealism) <= k)%nat
  /\ (fst (enumerate prefix f8Fixed f9Fixed f10Fixed target k
                     forbidFirstZero) = Continue ->
      fst (enumerate prefix f8Fixed f9Fixed f10Fixed target (k + 1)
                     forbidFirstZero) = Continue ->
      search prefix f8Fixed f9Fixed f10Fixed target k
             forbidFirstZero preferRealism
      = firstn k (search prefix f8Fixed f9Fixed f10Fixed target (k + 1)
                         forbidFirstZero preferRealism)).
Proof.
  split; [apply search_length|].
  intros Hk Hk1.
  rewrite !search_characterised. cbv zeta.
  rewrite (enumerate_complete _ _ _ _ _ _ _ Hk).
  rewrite (enumerate_complete _ _ _ _ _ _ _ Hk1).
  rewrite firstn_firstn. f_equal. lia.
Qed.

Lemma cap_monotone_witness :
  let prefix := repeat [9; 0] 7 in
  fst (enumerate prefix (Some [9; 0]) (Some [9; 0]) None 91 5 true) = Continue
  /\ fst (enumerate prefix (Some [9; 0]) (Some [9; 0]) None 91 (5 + 1) true)
     = Continue
  /\ search prefix (Some [9; 0]) (Some [9; 0]) None 91 5 true true
     = firstn 5 (search prefix (Some [9; 0]) (Some [9; 0]) None 91 (5 + 1)
                        true true).
Proof.
  cbv zeta.
  split; [vm_compute; reflexivity|].
  split; [vm_compute; reflexivity|].
  apply (proj2 (cap_monotone (repeat [9; 0] 7) (Some [9; 0]) (Some [9; 0])
                             None 91 5 true true));
    vm_compute; reflexivity.
Defined.

(** *** Targets no game can score *)

(** With every roll of the entered frames a pin count in 0..10, a target
    outside 0..300 has no match. *)
Lemma allMatches_out_of_range (prefix : list Frame)
  (f8Fixed f9Fixed f10Fixed : option Frame) (target : Z)
  (forbidFirstZero : bool) :
  Forall rollsInRange prefix ->
  (forall f, f8Fixed = Some f -> rollsInRange f) ->
  (forall f, f9Fixed = Some f -> rollsInRange f) ->
  (forall f, f10Fixed = Some f -> rollsInRange f) ->
  target < 0 \/ 300 < target ->
  allMatches prefix f8Fixed f9Fixed f10Fixed target forbidFirstZero = [].
Proof.
  intros Hp H8 H9 H10 Ht. unfold allMatches.
  apply matches_nil. intros f8 f9 f10 I8 I9 I10.
  assert (R8 : rollsInRange f8).
  { apply candidateList_in in I8. destruct I8 as [E|[_ I]]; [now apply H8|].
    eapply validOrdinary_rolls, normalPool_valid, I. }
  assert (R9 : rollsInRange f9).
  { apply candidateList_in in I9. destruct I9 as [E|[_ I]]; [now apply H9|].
    eapply validOrdinary_rolls, normalPool_valid, I. }
  assert (R10 : rollsInRange f10).
  { apply candidateList_in in I10. destruct I10 as [E|[_ I]]; [now apply H10|].
    eapply validTenth_rolls, tenthPool_valid, I. }
  assert (R : rollsInRange (flattenFrames (prefix ++ [f8; f9; f10]))).
  { apply rollsInRange_concat.
    apply Forall_app. split; [assumption|]. repeat constructor; assumption. }
  pose proof (scoreGame_range_of_rolls _ R). lia.
Qed.

(** C9: for a prefix whose frames are absent (empty) or satisfy the
    invariant of frames 1-9, any of frames 8-10 fixed to a frame satisfying
    its invariant or left free, and any policy, cap and ranking toggle, a
    target below 0 or above 300 makes the search return the empty
    sequence. *)
Theorem target_out_of_range_empty (prefix : list Frame)
  (f8Fixed f9Fixed f10Fixed : option Frame) (target : Z) (limit : nat)
  (forbidFirstZero preferRealism : bool)
  (Hprefix : Forall (fun f => f = [] \/ validOrdinary f = true) prefix)
  (H8 : forall f, f8Fixed = Some f -> validOrdinary f = true)
  (H9 : forall f, f9Fixed = Some f -> validOrdinary f = true)
  (H10 : forall f, f10Fixed = Some f -> validTenth f = true)
  (Htarget : target < 0 \/ 300 < target) :
  search prefix f8Fixed f9Fixed f10Fixed target limit forbidFirstZero
         preferRealism = [].
Proof.
  rewrite search_characterised. cbv zeta.
  rewrite allMatches_out_of_range; try assumption.
  - rewrite firstn_nil. destruct preferRealism; apply firstn_nil.
  - eapply Forall_impl; [|exact Hprefix].
    intros f [->|Hf]; [constructor|now apply validOrdinary_rolls].
  - intros f E. now apply validOrdinary_rolls, H8.
  - intros f E. now apply validOrdinary_rolls, H9.
  - intros f E. now apply validTenth_rolls, H10.
Qed.

Lemma target_out_of_range_empty_witness :
  search (repeat [10] 6 ++ [[]]) (Some [9; 1]) None None 301 50 true true = [].
Proof.
  apply target_out_of_range_empty.
  - repeat constructor; (now left) || (now right).
  - intros f E. injection E as <-. reflexivity.
  - discriminate.
  - discriminate.
  - lia.
Defined.
